(** * worker/run_with_job_id.py: the job picker

    The script reads [MONGO_URI] from the environment, asks the [jobs]
    collection of the [filesure] database for one document whose [jobStatus]
    is ["pending"], and hands the document's [_id], rendered as text, to the
    downloader, which it runs as a child process.

    The script is a straight line of calls into the Python runtime, the
    MongoDB driver and the operating system.  It is embedded as a program in
    a state-and-exception monad [Py]; the runtime, the driver and the
    operating system are the primitives of that monad, and what lies outside
    the process (the environment variables, the deployments that can be
    reached, what the operating system answers to a launch) is a [world]. *)

From Stdlib Require Import ZArith Strings.Byte Ascii String.
From stdpp Require Import base option list strings gmap pretty.

Open Scope Z_scope.
Open Scope string_scope.
Open Scope list_scope.

(** ** Values of the store, as the driver decodes them *)

#[global] Instance byte_eq_dec : EqDecision byte := Byte.byte_eq_dec.

(** The scalar values a field can hold.  An [ObjectId] is its raw bytes
    (twelve of them in a well-formed identifier); a string is its UTF-8
    bytes.  The model covers the stores whose fields hold such scalars, as
    the job records do ([jobStatus] is a status string): embedded
    documents, arrays, floating-point numbers and dates are not part of
    it. *)
Inductive bson : Type :=
  | BNull
  | BBool (b : bool)
  | BInt (z : Z)
  | BStr (s : string)
  | BObjectId (oid : list byte).

#[global] Instance bson_eq_dec : EqDecision bson.
Proof. solve_decision. Defined.

(** A document is a Python [dict] from field names to values. *)
Abbreviation document := (gmap string bson).

(** [binascii.hexlify]: two lower-case digits per byte, high nibble first. *)
Definition hex_digit (n : N) : ascii :=
  default "?"%char (String.get (N.to_nat n) "0123456789abcdef").

Definition hexlify (bs : list byte) : string :=
  foldr (λ b acc,
           String (hex_digit (Byte.to_N b / 16))
             (String (hex_digit (Byte.to_N b `mod` 16)) acc))
        "" bs.

(** [str(v)].  [ObjectId.__str__] is the hexadecimal rendering of the raw
    bytes; an integer prints in decimal; a string is itself. *)
Definition py_str (v : bson) : string :=
  match v with
  | BNull => "None"
  | BBool true => "True"
  | BBool false => "False"
  | BInt z => pretty z
  | BStr s => s
  | BObjectId oid => hexlify oid
  end.

(** [bool(job)] for what [find_one] hands back: [None] and the empty
    [dict] are falsy, every other [dict] is truthy. *)
Definition truthy (job : option document) : bool :=
  match job with
  | None => false
  | Some d => negb (bool_decide (d = ∅))
  end.

(** [dict.get(key, default)], the method behind [os.environ.get]. *)
Definition dict_get {V} (d : gmap string V) (key : string) (dflt : V) : V :=
  default dflt (d !! key).

(** ** The store *)

(** An equality filter [{k: v, ...}] selects the documents that hold [v]
    under every [k]; a [null] in the filter also selects the documents
    without the field.  (On a field that holds an array the store's filter
    also selects by membership; arrays are outside the values modelled.) *)
Definition field_matches (doc : document) (k : string) (v : bson) : bool :=
  match doc !! k with
  | Some x => bool_decide (x = v)
  | None => bool_decide (v = BNull)
  end.

Definition matches (flt doc : document) : bool :=
  forallb (λ kv, field_matches doc kv.1 kv.2) (map_to_list flt).

(** The methods of a collection.  The script calls [find_one] only; the
    others are the writes the driver offers. *)
Inductive store_op : Type :=
  | FindOne (flt : document)
  | InsertOne (doc : document)
  | UpdateOne (flt upd : document)
  | DeleteOne (flt : document).

Definition is_write (op : store_op) : bool :=
  match op with
  | FindOne _ => false
  | _ => true
  end.

Fixpoint update_first (flt upd : document) (docs : list document) : list document :=
  match docs with
  | [] => []
  | d :: rest =>
      if matches flt d then (upd ∪ d) :: rest else d :: update_first flt upd rest
  end.

Fixpoint delete_first (flt : document) (docs : list document) : list document :=
  match docs with
  | [] => []
  | d :: rest => if matches flt d then rest else d :: delete_first flt rest
  end.

(** What a method answers, in the store's own order of the documents. *)
Definition op_reply (op : store_op) (docs : list document) : option document :=
  match op with
  | FindOne flt => head (List.filter (matches flt) docs)
  | _ => None
  end.

(** What a method leaves in the collection; [None] when it writes nothing. *)
Definition op_effect (op : store_op) (docs : list document) : option (list document) :=
  match op with
  | FindOne _ => None
  | InsertOne d => Some (docs ++ [d])
  | UpdateOne flt upd => Some (update_first flt upd docs)
  | DeleteOne flt => Some (delete_first flt docs)
  end.

(** The databases of a deployment: database name, collection name, and the
    documents in storage order.  A name that is not there is an empty
    collection. *)
Abbreviation databases := (gmap string (gmap string (list document))).

Definition collection_docs (dbs : databases) (db coll : string) : list document :=
  default [] (dbs !! db ≫= (.!! coll)).

Definition collection_set (dbs : databases) (db coll : string)
    (docs : list document) : databases :=
  <[db := <[coll := docs]> (default ∅ (dbs !! db))]> dbs.

(** What answers at a connection string: nothing (the string is not a key of
    the network), a deployment that refuses the command, or one that serves. *)
Inductive endpoint : Type :=
  | Rejecting
  | Serving (dbs : databases).

(** ** Handles of the driver *)

Record Client := { client_uri : string }.
Record Database := { db_client : Client; db_name : string }.
Record Collection := { coll_db : Database; coll_name : string }.

Definition client_getitem (c : Client) (name : string) : Database :=
  {| db_client := c; db_name := name |}.

Definition db_getitem (d : Database) (name : string) : Collection :=
  {| coll_db := d; coll_name := name |}.

Definition coll_uri (c : Collection) : string := client_uri (db_client (coll_db c)).

(** ** The process and its world *)

Inductive py_exception : Type :=
  | SystemExit (code : Z)
  | KeyError (key : string)
  | TypeError
  | ValueError
  | OSError
  | CalledProcessError (returncode : Z)
  | UnicodeEncodeError
  | InvalidURI
  | ConfigurationError
  | ServerSelectionTimeoutError
  | OperationFailure.

(** What the constructor of the client raises on a connection string it
    refuses: [InvalidURI] (a scheme that is not MongoDB's),
    [ConfigurationError] (an empty string, an unknown option) or
    [ValueError] (a port that is not a number in range). *)
Inductive uri_error : Type :=
  | BadScheme
  | BadConfiguration
  | BadPort.

Definition uri_exception (e : uri_error) : py_exception :=
  match e with
  | BadScheme => InvalidURI
  | BadConfiguration => ConfigurationError
  | BadPort => ValueError
  end.

(** The operating system's answer to a launch: the child ran and ended with
    a status, or could not be started and the call raised. *)
Inductive launch : Type :=
  | Exited (returncode : Z)
  | NotStarted (e : py_exception).

(** The world of a run.  [client_refuses] is the driver's verdict on a
    connection string; [stdout_encodes] tells which lines with characters
    outside ASCII the codec of [sys.stdout] (set by the locale or by
    [PYTHONIOENCODING]) can encode; [os_exec] is the answer to a launch.
    What a child does while it runs is its own and is not part of the
    answer: the deployments of [network] change only by the commands of
    this process. *)
Record world := {
  environ : gmap string string;
  client_refuses : string → option uri_error;
  network : gmap string endpoint;
  stdout_encodes : string → bool;
  os_exec : list string → launch;
}.

(** The driver reads the connection string. *)
Definition uri_valid (w : world) (uri : string) : bool :=
  match client_refuses w uri with
  | None => true
  | Some _ => false
  end.

(** A string of ASCII characters only (a string is its UTF-8 bytes). *)
Definition is_ascii (s : string) : bool :=
  forallb (λ c, (N_of_ascii c <? 128)%N) (list_ascii_of_string s).

(** A line [sys.stdout] can write: every codec a text stream can have
    encodes ASCII; beyond ASCII it depends on the codec. *)
Definition can_print (w : world) (line : string) : bool :=
  is_ascii line || stdout_encodes w line.

(** The calls that leave the process, in the order they are made. *)
Inductive call : Type :=
  | Connect (uri : string)
  | Query (coll : Collection) (op : store_op)
  | Spawn (argv : list string)
  | Wait (returncode : Z).

Record process := {
  sys : world;
  stdout : list string;
  calls : list call;
}.

Definition boot (w : world) : process :=
  {| sys := w; stdout := []; calls := [] |}.

Definition log (c : call) (p : process) : process :=
  {| sys := sys p; stdout := stdout p; calls := calls p ++ [c] |}.

Definition set_network (n : gmap string endpoint) (p : process) : process :=
  {| sys := {| environ := environ (sys p); client_refuses := client_refuses (sys p);
               network := n; stdout_encodes := stdout_encodes (sys p);
               os_exec := os_exec (sys p) |};
     stdout := stdout p; calls := calls p |}.

(** ** The monad *)

Inductive outcome (A : Type) : Type :=
  | Returned (a : A)
  | Raised (e : py_exception).
Arguments Returned {A} a.
Arguments Raised {A} e.

Definition Py (A : Type) : Type := process → outcome A * process.

#[global] Instance Py_ret : MRet Py := λ A a p, (Returned a, p).
#[global] Instance Py_bind : MBind Py := λ A B f m p,
  match m p with
  | (Returned a, p') => f a p'
  | (Raised e, p') => (Raised e, p')
  end.

#[global] Instance Py_fmap : FMap Py := λ A B f m, a ← m; mret (f a).

Definition raise {A} (e : py_exception) : Py A := λ p, (Raised e, p).

(** ** Primitives: the runtime, the driver, the operating system *)

(** [os.environ.get(key, default)] *)
Definition os_environ_get (key dflt : string) : Py string :=
  λ p, (Returned (dict_get (environ (sys p)) key dflt), p).

(** [print(line)]: the line is encoded, then written; a line the codec of
    [sys.stdout] cannot encode raises before anything is written. *)
Definition print (line : string) : Py unit :=
  λ p, if can_print (sys p) line then
         (Returned (), {| sys := sys p; stdout := stdout p ++ [line]; calls := calls p |})
       else (Raised UnicodeEncodeError, p).

(** [sys.exit(code)] raises [SystemExit]. *)
Definition sys_exit {A} (code : Z) : Py A := raise (SystemExit code).

(** [job[key]] *)
Definition getitem (job : option document) (key : string) : Py bson :=
  match job with
  | None => raise TypeError
  | Some d =>
      match d !! key with
      | Some v => mret v
      | None => raise (KeyError key)
      end
  end.

(** [MongoClient(uri)]: the constructor parses the connection string and
    raises on one it cannot read; it does not wait for a server. *)
Definition MongoClient (uri : string) : Py Client :=
  λ p, let p' := log (Connect uri) p in
       match client_refuses (sys p) uri with
       | None => (Returned {| client_uri := uri |}, p')
       | Some e => (Raised (uri_exception e), p')
       end.

(** A method of a collection: the command goes to the deployment behind the
    client; no deployment, or one that refuses, raises. *)
Definition collection_call (c : Collection) (op : store_op) : Py (option document) :=
  λ p, let p' := log (Query c op) p in
       match network (sys p) !! coll_uri c with
       | None => (Raised ServerSelectionTimeoutError, p')
       | Some Rejecting => (Raised OperationFailure, p')
       | Some (Serving dbs) =>
           let db := db_name (coll_db c) in
           let docs := collection_docs dbs db (coll_name c) in
           (Returned (op_reply op docs),
            match op_effect op docs with
            | None => p'
            | Some docs' =>
                set_network
                  (<[coll_uri c := Serving (collection_set dbs db (coll_name c) docs')]>
                     (network (sys p))) p'
            end)
       end.

Definition find_one (c : Collection) (flt : document) : Py (option document) :=
  collection_call c (FindOne flt).

(** [subprocess.run(args, check=check)]: start the child, wait for it to
    end, and raise on a non-zero status only when [check] is set. *)
Record CompletedProcess := { args : list string; returncode : Z }.

Definition Popen (argv : list string) : Py Z :=
  λ p, let p' := log (Spawn argv) p in
       match os_exec (sys p) argv with
       | Exited rc => (Returned rc, p')
       | NotStarted e => (Raised e, p')
       end.

Definition Popen_wait (rc : Z) : Py Z :=
  λ p, (Returned rc, log (Wait rc) p).

Definition subprocess_run (argv : list string) (check : bool) : Py CompletedProcess :=
  child ← Popen argv;
  rc ← Popen_wait child;
  if check && negb (Z.eqb rc 0) then raise (CalledProcessError rc)
  else mret {| args := argv; returncode := rc |}.

(** ** The script *)

(** Lines 7 to 13: configure the client and ask for one pending job. *)
Definition find_next_pending : Py (option document) :=
  mongo_uri ← os_environ_get "MONGO_URI" "mongodb://localhost:27017";
  client ← MongoClient mongo_uri;
  let db := client_getitem client "filesure" in
  let jobs := db_getitem db "jobs" in
  find_one jobs {["jobStatus" := BStr "pending"]}.

(** Lines 15 to 23: what the script does with the value bound to [job]. *)
Definition run_job (job : option document) : Py unit :=
  (if negb (truthy job) then
     print "No pending job found.";;
     sys_exit 0
   else mret ());;
  job_id ← py_str <$> getitem job "_id";
  print ("Running job: " +:+ job_id);;
  subprocess_run ["python"; "downloader.py"; job_id] false;;
  mret ().

Definition run_with_job_id : Py unit :=
  job ← find_next_pending;
  run_job job.

(** ** The interpreter around the script *)

(** How the process ends: a script that runs off its end, or raises
    [SystemExit(0)], ends with status 0 and no diagnostic; any other
    exception is reported by the interpreter as a traceback and the status
    is 1. *)
Record exit_report := {
  exit_code : Z;
  traceback : option py_exception;
  final : process;
}.

Definition report_raise (e : py_exception) (p : process) : exit_report :=
  match e with
  | SystemExit c => {| exit_code := c; traceback := None; final := p |}
  | _ => {| exit_code := 1; traceback := Some e; final := p |}
  end.

Definition python (prog : Py unit) (w : world) : exit_report :=
  match prog (boot w) with
  | (Returned _, p) => {| exit_code := 0; traceback := None; final := p |}
  | (Raised e, p) => report_raise e p
  end.

(** ** What is observed of a run *)

(** The argument lists of the children the process started. *)
Definition spawned (cs : list call) : list (list string) :=
  omap (λ c, match c with Spawn argv => Some argv | _ => None end) cs.

(** The commands the process sent to a store, with their target. *)
Definition queries (cs : list call) : list (Collection * store_op) :=
  omap (λ c, match c with Query coll op => Some (coll, op) | _ => None end) cs.

(** The connection strings the process used, for a client or a command. *)
Definition endpoints_used (cs : list call) : list string :=
  omap (λ c, match c with
             | Connect uri => Some uri
             | Query coll _ => Some (coll_uri coll)
             | _ => None
             end) cs.

(** The connection string the script is configured with in a world. *)
Definition mongo_uri_of (w : world) : string :=
  dict_get (environ w) "MONGO_URI" "mongodb://localhost:27017".

(** The collection the script reads, as a handle on that connection. *)
Definition jobs_at (uri : string) : Collection :=
  db_getitem (client_getitem {| client_uri := uri |} "filesure") "jobs".

(** A record whose [jobStatus] equals ["pending"]. *)
Definition is_pending (d : document) : bool :=
  bool_decide (d !! "jobStatus" = Some (BStr "pending")).

Definition pending_filter : document := {["jobStatus" := BStr "pending"]}.

(** The job queue of a world: the documents of [filesure.jobs] at the
    configured connection string, when that string is accepted by the
    driver and a deployment serves there. *)
Definition job_queue (w : world) : option (list document) :=
  if uri_valid w (mongo_uri_of w) then
    match network w !! mongo_uri_of w with
    | Some (Serving dbs) => Some (collection_docs dbs "filesure" "jobs")
    | _ => None
    end
  else None.

(** What the query of the script answers in a world, if it answers. *)
Definition query_result (w : world) : option (option document) :=
  match find_next_pending (boot w) with
  | (Returned job, _) => Some job
  | (Raised _, _) => None
  end.

(** The state after the client is built and the command is sent. *)
Definition asked (w : world) : process :=
  log (Query (jobs_at (mongo_uri_of w)) (FindOne pending_filter))
    (log (Connect (mongo_uri_of w)) (boot w)).

Definition printed (line : string) (p : process) : process :=
  {| sys := sys p; stdout := stdout p ++ [line]; calls := calls p |}.

(** The ways a run of the script can end in a world [w]. *)
Inductive ending (w : world) : exit_report → Prop :=
  | end_invalid_uri e :
      client_refuses w (mongo_uri_of w) = Some e →
      ending w {| exit_code := 1; traceback := Some (uri_exception e);
                  final := log (Connect (mongo_uri_of w)) (boot w) |}
  | end_unreachable :
      uri_valid w (mongo_uri_of w) = true →
      network w !! mongo_uri_of w = None →
      ending w {| exit_code := 1; traceback := Some ServerSelectionTimeoutError;
                  final := asked w |}
  | end_rejected :
      uri_valid w (mongo_uri_of w) = true →
      network w !! mongo_uri_of w = Some Rejecting →
      ending w {| exit_code := 1; traceback := Some OperationFailure;
                  final := asked w |}
  | end_nothing docs :
      job_queue w = Some docs →
      head (List.filter is_pending docs) = None →
      ending w {| exit_code := 0; traceback := None;
                  final := printed "No pending job found." (asked w) |}
  | end_no_id docs d :
      job_queue w = Some docs →
      head (List.filter is_pending docs) = Some d →
      d !! "_id" = None →
      ending w {| exit_code := 1; traceback := Some (KeyError "_id");
                  final := asked w |}
  | end_unprintable docs d v :
      job_queue w = Some docs →
      head (List.filter is_pending docs) = Some d →
      d !! "_id" = Some v →
      can_print w ("Running job: " +:+ py_str v) = false →
      ending w {| exit_code := 1; traceback := Some UnicodeEncodeError;
                  final := asked w |}
  | end_waited docs d v rc :
      job_queue w = Some docs →
      head (List.filter is_pending docs) = Some d →
      d !! "_id" = Some v →
      can_print w ("Running job: " +:+ py_str v) = true →
      os_exec w ["python"; "downloader.py"; py_str v] = Exited rc →
      ending w {| exit_code := 0; traceback := None;
                  final := log (Wait rc)
                             (log (Spawn ["python"; "downloader.py"; py_str v])
                                (printed ("Running job: " +:+ py_str v) (asked w))) |}
  | end_not_started docs d v e :
      job_queue w = Some docs →
      head (List.filter is_pending docs) = Some d →
      d !! "_id" = Some v →
      can_print w ("Running job: " +:+ py_str v) = true →
      os_exec w ["python"; "downloader.py"; py_str v] = NotStarted e →
      ending w (report_raise e
                  (log (Spawn ["python"; "downloader.py"; py_str v])
                     (printed ("Running job: " +:+ py_str v) (asked w)))).

(** ** Sample worlds *)

Definition oid_a : list byte :=
  [x50; x7f; x1f; x77; xbc; xf8; x6c; xd7; x99; x43; x90; x11].

Definition job_a : document :=
  {["_id" := BObjectId oid_a; "jobStatus" := BStr "pending"]}.

Definition job_b : document :=
  {["_id" := BStr "b-42"; "jobStatus" := BStr "pending"; "attempts" := BInt 2]}.

Definition job_done : document :=
  {["_id" := BInt 7; "jobStatus" := BStr "completed"]}.

(** A deployment at the default address holding [docs] in [filesure.jobs],
    no [MONGO_URI] in the environment, and a downloader that ends with
    status [rc]. *)
Definition local_world (docs : list document) (rc : Z) : world :=
  {| environ := ∅;
     client_refuses := λ _, None;
     stdout_encodes := λ _, true;
     network :=
       {["mongodb://localhost:27017" := Serving {["filesure" := {["jobs" := docs]}]}]};
     os_exec := λ _, Exited rc |}.

(** [MONGO_URI] names a host where nothing answers. *)
Definition offline_world : world :=
  {| environ := {["MONGO_URI" := "mongodb://db.internal:27017"]};
     client_refuses := λ _, None;
     stdout_encodes := λ _, true;
     network := ∅;
     os_exec := λ _, Exited 0 |}.

(** The same queue behind another connection string. *)
Definition remote_world (docs : list document) (rc : Z) : world :=
  {| environ := {["MONGO_URI" := "mongodb://db.internal:27017"]};
     client_refuses := λ _, None;
     stdout_encodes := λ _, true;
     network :=
       {["mongodb://db.internal:27017" := Serving {["filesure" := {["jobs" := docs]}]}]};
     os_exec := λ _, Exited rc |}.

(** A lower-case hexadecimal digit. *)
Definition is_hex_digit (c : ascii) : bool :=
  existsb (Ascii.eqb c) (list_ascii_of_string "0123456789abcdef").

(** A pending record that lost its [_id]. *)
Definition job_no_id : document := {["jobStatus" := BStr "pending"]}.

(** [MONGO_URI] holds an address of another scheme, which the driver
    refuses. *)
Definition misconfigured_world : world :=
  {| environ := {["MONGO_URI" := "http://localhost:27017"]};
     client_refuses :=
       λ uri, if bool_decide (uri = "http://localhost:27017") then Some BadScheme else None;
     stdout_encodes := λ _, true;
     network := ∅;
     os_exec := λ _, Exited 0 |}.

(** The identifier [café], as its UTF-8 bytes. *)
Definition cafe : string := "caf" +:+ String "195" (String "169" "").

Definition job_cafe : document :=
  {["_id" := BStr cafe; "jobStatus" := BStr "pending"]}.

(** The queue of [local_world] under [PYTHONIOENCODING=ascii]: standard
    output encodes nothing beyond ASCII. *)
Definition ascii_world (docs : list document) (rc : Z) : world :=
  {| environ := {["PYTHONIOENCODING" := "ascii"]};
     client_refuses := λ _, None;
     stdout_encodes := λ _, false;
     network :=
       {["mongodb://localhost:27017" := Serving {["filesure" := {["jobs" := docs]}]}]};
     os_exec := λ _, Exited rc |}.

(** A queue as in [local_world], on a host without a [python] to run. *)
Definition no_python_world (docs : list document) : world :=
  {| environ := ∅;
     client_refuses := λ _, None;
     stdout_encodes := λ _, true;
     network :=
       {["mongodb://localhost:27017" := Serving {["filesure" := {["jobs" := docs]}]}]};
     os_exec := λ _, NotStarted OSError |}.

(** The queue of [local_world] among other variables, collections,
    databases and deployments. *)
Definition crowded_world (docs : list document) (rc : Z) : world :=
  {| environ := {["HOME" := "/root"; "MONGO_DB" := "other"]};
     client_refuses := λ _, None;
     stdout_encodes := λ _, true;
     network :=
       {["mongodb://localhost:27017" :=
           Serving {["filesure" := {["jobs" := docs; "users" := [job_done]]};
                     "archive" := {["jobs" := [job_a]]}]};
         "mongodb://db.internal:27017" := Rejecting]};
     os_exec := λ _, Exited rc |}.

(** A deployment that serves, with no [filesure] database in it. *)
Definition fresh_world : world :=
  {| environ := ∅;
     client_refuses := λ _, None;
     stdout_encodes := λ _, true;
     network := {["mongodb://localhost:27017" := Serving {["archive" := {["jobs" := [job_a]]}]}]};
     os_exec := λ _, Exited 0 |}.

(** * Properties *)

(** ** Rendering identifiers *)

Lemma hexlify_length bs : String.length (hexlify bs) = (2 * length bs)%nat.
Proof. induction bs as [|b bs IH]; simpl; [done | lia]. Qed.

Lemma hexlify_app bs1 bs2 : hexlify (bs1 ++ bs2) = hexlify bs1 +:+ hexlify bs2.
Proof. induction bs1 as [|b bs1 IH]; simpl; [done | by rewrite IH]. Qed.

Example ObjectId_str :
  py_str (BObjectId [x50; x7f; x1f; x77; xbc; xf8; x6c; xd7; x99; x43; x90; x11])
  = "507f1f77bcf86cd799439011".
Proof. reflexivity. Qed.

(** ** The filter *)

Lemma matches_pending d : matches pending_filter d = is_pending d.
Proof.
  unfold matches, pending_filter, is_pending, field_matches.
  rewrite map_to_list_singleton. simpl.
  destruct (d !! "jobStatus") as [x|] eqn:E; rewrite andb_true_r.
  - apply bool_decide_ext. split; [by intros -> | by intros [= ->]].
  - by rewrite !bool_decide_eq_false_2.
Qed.

Lemma filter_matches_pending docs :
  List.filter (matches pending_filter) docs = List.filter is_pending docs.
Proof. apply List.filter_ext. intros d. apply matches_pending. Qed.

Lemma pending_truthy d : is_pending d = true → truthy (Some d) = true.
Proof.
  unfold is_pending, truthy. intros H%bool_decide_eq_true.
  rewrite bool_decide_eq_false_2; [done|]. intros ->. by rewrite lookup_empty in H.
Qed.

Example cafe_bytes : String.length cafe = 5%nat ∧ is_ascii cafe = false.
Proof. split; reflexivity. Qed.

Example falsy_values : truthy None = false ∧ truthy (Some ∅) = false.
Proof. split; reflexivity. Qed.

Lemma falsy_inv job : truthy job = false → job = None ∨ job = Some ∅.
Proof.
  destruct job as [d|]; [|by left]. simpl. intros H. right. f_equal.
  apply negb_false_iff in H. by apply bool_decide_eq_true in H.
Qed.

(** ** The run, step by step *)
Lemma find_next_pending_boot w :
  find_next_pending (boot w) =
    match client_refuses w (mongo_uri_of w) with
    | Some e => (Raised (uri_exception e), log (Connect (mongo_uri_of w)) (boot w))
    | None =>
        match network w !! mongo_uri_of w with
        | None => (Raised ServerSelectionTimeoutError, asked w)
        | Some Rejecting => (Raised OperationFailure, asked w)
        | Some (Serving dbs) =>
            (Returned (head (List.filter is_pending (collection_docs dbs "filesure" "jobs"))),
             asked w)
        end
    end.
Proof.
  unfold find_next_pending, os_environ_get, MongoClient, find_one, collection_call,
    mbind, Py_bind, asked, mongo_uri_of. simpl.
  destruct (client_refuses w _); [done|]. simpl.
  unfold coll_uri. simpl.
  destruct (network w !! _) as [[|dbs]|]; try done.
  by rewrite <- filter_matches_pending.
Qed.

Lemma uri_valid_inv w uri : uri_valid w uri = true → client_refuses w uri = None.
Proof. unfold uri_valid. by destruct (client_refuses w uri). Qed.

Lemma report_uri_error e p :
  report_raise (uri_exception e) p
  = {| exit_code := 1; traceback := Some (uri_exception e); final := p |}.
Proof. by destruct e. Qed.

Lemma is_ascii_app s1 s2 : is_ascii (s1 +:+ s2) = is_ascii s1 && is_ascii s2.
Proof.
  unfold is_ascii. induction s1 as [|c s1 IH]; simpl; [done|].
  by rewrite IH, andb_assoc.
Qed.

Lemma hex_digit_ascii n : (N_of_ascii (hex_digit n) <? 128)%N = true.
Proof.
  unfold hex_digit. generalize (N.to_nat n). intros k.
  do 16 (destruct k as [|k]; [reflexivity|]). reflexivity.
Qed.

Lemma hexlify_ascii bs : is_ascii (hexlify bs) = true.
Proof.
  unfold is_ascii. induction bs as [|b bs IH]; simpl; [done|].
  by rewrite !hex_digit_ascii, IH.
Qed.

(** The two lines the script prints for a record named by an [ObjectId],
    and its notice, can always be written. *)
Lemma can_print_notice w : can_print w "No pending job found." = true.
Proof. reflexivity. Qed.

Lemma can_print_object_id w oid :
  can_print w ("Running job: " +:+ py_str (BObjectId oid)) = true.
Proof.
  unfold can_print. simpl py_str. by rewrite is_ascii_app, hexlify_ascii.
Qed.

Lemma run_job_falsy job p :
  truthy job = false →
  run_job job p =
    (Raised (SystemExit 0), printed "No pending job found." p).
Proof. intros H. unfold run_job. by rewrite H. Qed.

Lemma run_job_found d v p :
  truthy (Some d) = true → d !! "_id" = Some v →
  can_print (sys p) ("Running job: " +:+ py_str v) = true →
  let argv := ["python"; "downloader.py"; py_str v] in
  let p' := log (Spawn argv) (printed ("Running job: " +:+ py_str v) p) in
  run_job (Some d) p =
    match os_exec (sys p) argv with
    | Exited rc => (Returned (), log (Wait rc) p')
    | NotStarted e => (Raised e, p')
    end.
Proof.
  intros Ht Hid Hp. unfold run_job. rewrite Ht. simpl.
  unfold getitem. rewrite Hid.
  unfold fmap, Py_fmap, mbind, Py_bind, mret, Py_ret, print, subprocess_run, Popen,
    Popen_wait, mbind, Py_bind. rewrite Hp. simpl.
  by destruct (os_exec (sys p) _).
Qed.

Lemma run_job_unprintable d v p :
  truthy (Some d) = true → d !! "_id" = Some v →
  can_print (sys p) ("Running job: " +:+ py_str v) = false →
  run_job (Some d) p = (Raised UnicodeEncodeError, p).
Proof.
  intros Ht Hid Hp. unfold run_job. rewrite Ht. simpl.
  unfold getitem. rewrite Hid.
  unfold fmap, Py_fmap, mbind, Py_bind, mret, Py_ret, print. by rewrite Hp.
Qed.

Lemma run_job_no_id d p :
  truthy (Some d) = true → d !! "_id" = None →
  run_job (Some d) p = (Raised (KeyError "_id"), p).
Proof.
  intros Ht Hid. unfold run_job. rewrite Ht. simpl.
  unfold getitem. by rewrite Hid.
Qed.

Lemma head_filter_Some {A} (f : A → bool) (l : list A) (x : A) :
  head (List.filter f l) = Some x → x ∈ l ∧ f x = true.
Proof.
  intros H. assert (List.In x (List.filter f l)) as Hin.
  { destruct (List.filter f l); simplify_eq/=. by left. }
  apply List.filter_In in Hin as [Hin Hf]. by rewrite list_elem_of_In.
Qed.

Lemma job_queue_inv w docs :
  job_queue w = Some docs →
  uri_valid w (mongo_uri_of w) = true ∧
  ∃ dbs, network w !! mongo_uri_of w = Some (Serving dbs) ∧
         docs = collection_docs dbs "filesure" "jobs".
Proof.
  unfold job_queue. destruct (uri_valid w _); [|done].
  destruct (network w !! _) as [[|dbs]|]; try done.
  intros [= <-]. eauto.
Qed.

(** Every run ends in one of the eight ways of [ending]. *)
Lemma run_ending w : ending w (python run_with_job_id w).
Proof.
  unfold python, run_with_job_id, mbind, Py_bind.
  rewrite find_next_pending_boot.
  destruct (client_refuses w (mongo_uri_of w)) as [e|] eqn:Hv.
  { rewrite report_uri_error. by constructor. }
  assert (uri_valid w (mongo_uri_of w) = true) as Hv' by (unfold uri_valid; by rewrite Hv).
  destruct (network w !! mongo_uri_of w) as [[|dbs]|] eqn:Hn;
    [by constructor | | by constructor].
  assert (job_queue w = Some (collection_docs dbs "filesure" "jobs")) as Hq.
  { unfold job_queue. by rewrite Hv', Hn. }
  destruct (head _) as [d|] eqn:Hh.
  - pose proof (head_filter_Some _ _ _ Hh) as [_ Hp%pending_truthy].
    destruct (d !! "_id") as [v|] eqn:Hid.
    + destruct (can_print w ("Running job: " +:+ py_str v)) eqn:Hc.
      * rewrite (run_job_found d v) by done. simpl.
        destruct (os_exec w _) eqn:Hx.
        -- by eapply end_waited.
        -- by eapply end_not_started.
      * rewrite (run_job_unprintable d v) by done. by eapply end_unprintable.
    + rewrite run_job_no_id by done. by eapply end_no_id.
  - rewrite run_job_falsy by done. by eapply end_nothing.
Qed.

(** Case analysis on how the run in [w] ends. *)
Ltac run_cases w :=
  generalize (run_ending w); generalize (python run_with_job_id w); intros ? [].

(** Discard the endings that contradict what is known of the queue. *)
Ltac same_queue :=
  repeat match goal with
  | H : job_queue ?w = Some ?a, H' : job_queue ?w = Some ?b |- _ =>
      rewrite H in H'; injection H' as <-
  | H : job_queue ?w = Some _, H' : client_refuses ?w _ = Some _ |- _ =>
      apply job_queue_inv in H as [?%uri_valid_inv _]; congruence
  | H : job_queue ?w = Some _, H' : network ?w !! _ = None |- _ =>
      apply job_queue_inv in H as (_ & ? & ? & _); congruence
  | H : job_queue ?w = Some _, H' : network ?w !! _ = Some Rejecting |- _ =>
      apply job_queue_inv in H as (_ & ? & ? & _); congruence
  end.

(** Case analysis on the exception of a launch that did not start. *)
Ltac by_exception_with tac :=
  match goal with
  | |- context [report_raise ?e _] => destruct e; simpl; tac
  end.

Ltac by_exception := by_exception_with ltac:(repeat split; reflexivity).

(** ** The claims *)

(** C1. When the job queue holds exactly one record whose [jobStatus] equals
    ["pending"], and the text of its identifier is
    ["507f1f77bcf86cd799439011"], the script prints the line
    ["Running job: 507f1f77bcf86cd799439011"] and starts the downloader
    exactly once, with that text as the only argument after the script
    name. *)
Theorem single_pending_job_dispatched w docs d v :
  job_queue w = Some docs →
  List.filter is_pending docs = [d] →
  d !! "_id" = Some v →
  py_str v = "507f1f77bcf86cd799439011" →
  stdout (final (python run_with_job_id w))
    = ["Running job: 507f1f77bcf86cd799439011"] ∧
  spawned (calls (final (python run_with_job_id w)))
    = [["python"; "downloader.py"; "507f1f77bcf86cd799439011"]].
Proof.
  intros Hq Hf Hid Hs. run_cases w; intros; same_queue;
    match goal with
    | H : head (List.filter is_pending _) = _ |- _ => rewrite Hf in H; simplify_eq/=
    end.
  - match goal with
    | H : can_print _ _ = false |- _ => by rewrite Hs in H
    end.
  - rewrite Hs. split; reflexivity.
  - rewrite Hs. by_exception.
Qed.

Lemma single_pending_job_dispatched_witness :
  job_queue (local_world [job_done; job_a] 0) = Some [job_done; job_a] ∧
  stdout (final (python run_with_job_id (local_world [job_done; job_a] 0)))
    = ["Running job: 507f1f77bcf86cd799439011"] ∧
  spawned (calls (final (python run_with_job_id (local_world [job_done; job_a] 0))))
    = [["python"; "downloader.py"; "507f1f77bcf86cd799439011"]].
Proof.
  split; [by vm_compute|].
  apply (single_pending_job_dispatched _ [job_done; job_a] job_a (BObjectId oid_a));
    by vm_compute.
Defined.

(** C2. When the job queue holds no record whose [jobStatus] equals
    ["pending"], the script prints ["No pending job found."], ends with
    status 0 and without a traceback, and starts no child process. *)
Theorem no_pending_job_exits_zero w docs :
  job_queue w = Some docs →
  (∀ d, d ∈ docs → is_pending d = false) →
  stdout (final (python run_with_job_id w)) = ["No pending job found."] ∧
  exit_code (python run_with_job_id w) = 0 ∧
  traceback (python run_with_job_id w) = None ∧
  spawned (calls (final (python run_with_job_id w))) = [].
Proof.
  intros Hq Hnone. run_cases w; intros; same_queue; try done.
  all: match goal with
       | H : head (List.filter is_pending _) = Some ?d |- _ =>
           apply head_filter_Some in H as [Hin Hp];
           rewrite (Hnone d Hin) in Hp; discriminate
       end.
Qed.

Lemma no_pending_job_exits_zero_witness :
  job_queue (local_world [job_done] 0) = Some [job_done] ∧
  stdout (final (python run_with_job_id (local_world [job_done] 0)))
    = ["No pending job found."] ∧
  exit_code (python run_with_job_id (local_world [job_done] 0)) = 0 ∧
  traceback (python run_with_job_id (local_world [job_done] 0)) = None ∧
  spawned (calls (final (python run_with_job_id (local_world [job_done] 0)))) = [].
Proof.
  split; [by vm_compute|].
  apply (no_pending_job_exits_zero _ [job_done]); [by vm_compute|].
  intros d ->%list_elem_of_singleton. by vm_compute.
Defined.

(** C3. When a job is found, its line is written and the downloader is
    started, the script waits for the child before it ends (the last two
    calls of the process are the launch and the wait that collects the
    child's status), and whatever that status is, zero or not, the script
    ends with status 0 and without a traceback. *)
Theorem child_status_not_propagated w docs d v rc :
  job_queue w = Some docs →
  head (List.filter is_pending docs) = Some d →
  d !! "_id" = Some v →
  can_print w ("Running job: " +:+ py_str v) = true →
  os_exec w ["python"; "downloader.py"; py_str v] = Exited rc →
  calls (final (python run_with_job_id w))
    = [Connect (mongo_uri_of w);
       Query (jobs_at (mongo_uri_of w)) (FindOne pending_filter);
       Spawn ["python"; "downloader.py"; py_str v];
       Wait rc] ∧
  exit_code (python run_with_job_id w) = 0 ∧
  traceback (python run_with_job_id w) = None.
Proof.
  intros Hq Hh Hid Hp Hx. run_cases w; intros; same_queue; simplify_eq;
    try congruence.
  all: match goal with
       | H : os_exec _ _ = _ |- _ => rewrite Hx in H; simplify_eq
       end.
  done.
Qed.

Lemma child_status_not_propagated_witness :
  job_queue (local_world [job_a; job_b] 2) = Some [job_a; job_b] ∧
  can_print (local_world [job_a; job_b] 2)
    ("Running job: " +:+ py_str (BObjectId oid_a)) = true ∧
  os_exec (local_world [job_a; job_b] 2)
    ["python"; "downloader.py"; py_str (BObjectId oid_a)] = Exited 2 ∧
  calls (final (python run_with_job_id (local_world [job_a; job_b] 2)))
    = [Connect (mongo_uri_of (local_world [job_a; job_b] 2));
       Query (jobs_at (mongo_uri_of (local_world [job_a; job_b] 2)))
         (FindOne pending_filter);
       Spawn ["python"; "downloader.py"; py_str (BObjectId oid_a)];
       Wait 2] ∧
  exit_code (python run_with_job_id (local_world [job_a; job_b] 2)) = 0 ∧
  traceback (python run_with_job_id (local_world [job_a; job_b] 2)) = None.
Proof.
  split; [by vm_compute|]. split; [by vm_compute|]. split; [reflexivity|].
  apply (child_status_not_propagated _ [job_a; job_b] job_a (BObjectId oid_a) 2);
    by vm_compute.
Defined.

(** C4. In every world, the commands the script sends to the store are
    reads ([find_one]) only, and the deployments, with every record they
    hold, are after the run what they were before it. *)
Theorem store_is_only_read w :
  Forall (λ q, is_write q.2 = false) (queries (calls (final (python run_with_job_id w)))) ∧
  network (sys (final (python run_with_job_id w))) = network w.
Proof.
  run_cases w; intros; simpl; try (split; [repeat constructor | done]).
  by_exception_with ltac:(split; [repeat constructor | done]).
Qed.

(** The model can tell a read from a write: a claim step, which the script
    does not have, leaves another queue behind. *)
Example a_write_changes_the_store :
  let claim := collection_call (jobs_at "mongodb://localhost:27017")
                 (UpdateOne pending_filter {["jobStatus" := BStr "running"]});; mret () in
  job_queue (sys (final (python claim (local_world [job_a] 0))))
  ≠ job_queue (local_world [job_a] 0).
Proof.
  intros claim H.
  apply (f_equal (λ q : option (list document),
                    docs ← q; d ← head docs; d !! "jobStatus")) in H.
  vm_compute in H. discriminate.
Qed.

(** C5. The connection string the script gives to the client, and to which
    its one command goes, is the value of [MONGO_URI] when the variable is
    set, and ["mongodb://localhost:27017"] when it is not. *)
Theorem endpoint_from_environment w :
  let target := match environ w !! "MONGO_URI" with
                | Some v => v
                | None => "mongodb://localhost:27017"
                end in
  head (calls (final (python run_with_job_id w))) = Some (Connect target) ∧
  Forall (λ uri, uri = target)
    (endpoints_used (calls (final (python run_with_job_id w)))).
Proof.
  intros target.
  assert (mongo_uri_of w = target) as Ht by done.
  run_cases w; intros; rewrite <- Ht; simpl;
    try (split; [done | repeat constructor]).
  by_exception_with ltac:(split; [done | repeat constructor]).
Qed.

Example default_endpoint_used :
  head (calls (final (python run_with_job_id (local_world [job_a] 0))))
  = Some (Connect "mongodb://localhost:27017").
Proof. reflexivity. Qed.

Example configured_endpoint_used :
  head (calls (final (python run_with_job_id (remote_world [job_a] 0))))
  = Some (Connect "mongodb://db.internal:27017").
Proof. reflexivity. Qed.

(** C6, as amended.  When the job queue holds two or more records whose
    [jobStatus] equals ["pending"] (each stored record carrying its [_id],
    as the store guarantees), and the ["Running job"] line of the first
    pending record can be written to standard output, the script picks
    exactly one of them, that first pending one in the store's order,
    prints its identifier and starts the downloader exactly once, for that
    record. *)
Theorem one_of_many_pending_dispatched w docs :
  job_queue w = Some docs →
  (2 ≤ length (List.filter is_pending docs))%nat →
  Forall (λ d, is_Some (d !! "_id")) docs →
  (∀ d v, head (List.filter is_pending docs) = Some d → d !! "_id" = Some v →
          can_print w ("Running job: " +:+ py_str v) = true) →
  ∃ d v,
    head (List.filter is_pending docs) = Some d ∧
    d ∈ docs ∧ is_pending d = true ∧ d !! "_id" = Some v ∧
    stdout (final (python run_with_job_id w)) = ["Running job: " +:+ py_str v] ∧
    spawned (calls (final (python run_with_job_id w)))
      = [["python"; "downloader.py"; py_str v]].
Proof.
  intros Hq Hlen Hids Hprint.
  destruct (List.filter is_pending docs) as [|d rest] eqn:Hf; [simpl in Hlen; lia|].
  assert (head (List.filter is_pending docs) = Some d) as Hh by by rewrite Hf.
  pose proof (head_filter_Some _ _ _ Hh) as [Hin Hp].
  rewrite Forall_forall in Hids. destruct (Hids d Hin) as [v Hid].
  pose proof (Hprint d v eq_refl Hid) as Hc.
  exists d, v. rewrite <- Hf. do 4 (split; [done|]).
  run_cases w; intros; same_queue;
    match goal with
    | H : head (List.filter is_pending _) = _ |- _ => rewrite Hh in H; simplify_eq
    end.
  - congruence.
  - done.
  - by_exception.
Qed.

(** Under a codec that encodes ASCII only, a queue whose first pending
    record is named by an [ObjectId] is served all the same. *)
Lemma one_of_many_pending_dispatched_witness :
  job_queue (ascii_world [job_done; job_a; job_cafe] 0) = Some [job_done; job_a; job_cafe] ∧
  ∃ d v,
    head (List.filter is_pending [job_done; job_a; job_cafe]) = Some d ∧
    d ∈ [job_done; job_a; job_cafe] ∧ is_pending d = true ∧ d !! "_id" = Some v ∧
    stdout (final (python run_with_job_id (ascii_world [job_done; job_a; job_cafe] 0)))
      = ["Running job: " +:+ py_str v] ∧
    spawned (calls (final (python run_with_job_id (ascii_world [job_done; job_a; job_cafe] 0))))
      = [["python"; "downloader.py"; py_str v]].
Proof.
  split; [by vm_compute|].
  apply (one_of_many_pending_dispatched (ascii_world [job_done; job_a; job_cafe] 0)).
  - by vm_compute.
  - vm_compute. lia.
  - repeat constructor; eexists; vm_compute; reflexivity.
  - intros d v Hh Hid. vm_compute in Hh. injection Hh as <-.
    vm_compute in Hid. injection Hid as <-. by vm_compute.
Defined.

(** C6, as stated, fails: with two pending records, the first one named
    [café], and a standard output that encodes ASCII only, line 20 raises
    and the downloader is not started at all. *)
Lemma one_of_many_pending_counterexample :
  job_queue (ascii_world [job_cafe; job_b] 0) = Some [job_cafe; job_b] ∧
  (2 ≤ length (List.filter is_pending [job_cafe; job_b]))%nat ∧
  Forall (λ d, is_Some (d !! "_id")) [job_cafe; job_b] ∧
  spawned (calls (final (python run_with_job_id (ascii_world [job_cafe; job_b] 0)))) = [] ∧
  stdout (final (python run_with_job_id (ascii_world [job_cafe; job_b] 0))) = [] ∧
  exit_code (python run_with_job_id (ascii_world [job_cafe; job_b] 0)) = 1 ∧
  traceback (python run_with_job_id (ascii_world [job_cafe; job_b] 0))
    = Some UnicodeEncodeError.
Proof.
  split; [by vm_compute|]. split; [vm_compute; lia|].
  split; [repeat constructor; eexists; vm_compute; reflexivity|].
  by vm_compute.
Qed.

(** C7. When no deployment answers at the configured connection string, or
    the one that answers refuses the command, the exception of the driver
    is not caught: the script ends with status 1 and the interpreter's
    traceback of that exception, having sent its command once, printed
    neither of its two lines, and started no child process. *)
Theorem store_failure_is_uncaught w :
  uri_valid w (mongo_uri_of w) = true →
  network w !! mongo_uri_of w = None ∨ network w !! mongo_uri_of w = Some Rejecting →
  exit_code (python run_with_job_id w) = 1 ∧
  traceback (python run_with_job_id w)
    = Some (match network w !! mongo_uri_of w with
            | None => ServerSelectionTimeoutError
            | Some _ => OperationFailure
            end) ∧
  stdout (final (python run_with_job_id w)) = [] ∧
  spawned (calls (final (python run_with_job_id w))) = [] ∧
  queries (calls (final (python run_with_job_id w)))
    = [(jobs_at (mongo_uri_of w), FindOne pending_filter)].
Proof.
  intros Hv Hn. run_cases w; intros;
    try match goal with
        | H : job_queue _ = Some _ |- _ =>
            apply job_queue_inv in H as (_ & dbs & Hs & _);
            destruct Hn as [Hn|Hn]; congruence
        end.
  - apply uri_valid_inv in Hv. congruence.
  - match goal with H : network _ !! _ = None |- _ => by rewrite H end.
  - match goal with H : network _ !! _ = Some Rejecting |- _ => by rewrite H end.
Qed.

Lemma store_failure_is_uncaught_witness :
  uri_valid offline_world (mongo_uri_of offline_world) = true ∧
  network offline_world !! mongo_uri_of offline_world = None ∧
  exit_code (python run_with_job_id offline_world) = 1 ∧
  traceback (python run_with_job_id offline_world) = Some ServerSelectionTimeoutError ∧
  stdout (final (python run_with_job_id offline_world)) = [] ∧
  spawned (calls (final (python run_with_job_id offline_world))) = [] ∧
  queries (calls (final (python run_with_job_id offline_world)))
    = [(jobs_at (mongo_uri_of offline_world), FindOne pending_filter)].
Proof.
  split; [reflexivity|]. split; [by vm_compute|].
  apply (store_failure_is_uncaught offline_world); [reflexivity | left; by vm_compute].
Defined.

(** What the query answered is what the rest of the script runs on. *)
Lemma run_after_query w job :
  query_result w = Some job →
  run_with_job_id (boot w) = run_job job (asked w).
Proof.
  unfold query_result, run_with_job_id, mbind, Py_bind.
  rewrite find_next_pending_boot.
  destruct (client_refuses w _); [done|].
  destruct (network w !! _) as [[|dbs]|]; try done.
  by intros [= <-].
Qed.

(** C8. The not-found branch is taken on the truth value of the query
    result: for every falsy result, [None] or an empty document alike, the
    rest of the script behaves as the two statements [print("No pending job
    found.")] and [sys.exit(0)], which do not mention the result: it prints
    the notice, ends with status 0, and makes no call. *)
Theorem falsy_result_is_not_found job w :
  truthy job = false →
  python (run_job job) w = python (print "No pending job found.";; sys_exit 0) w ∧
  stdout (final (python (run_job job) w)) = ["No pending job found."] ∧
  exit_code (python (run_job job) w) = 0 ∧
  traceback (python (run_job job) w) = None ∧
  calls (final (python (run_job job) w)) = [].
Proof.
  intros Hf. unfold python. by rewrite run_job_falsy.
Qed.

Lemma falsy_result_is_not_found_witness :
  truthy (Some ∅) = false ∧
  python (run_job (Some ∅)) offline_world
    = python (print "No pending job found.";; sys_exit 0) offline_world ∧
  stdout (final (python (run_job (Some ∅)) offline_world)) = ["No pending job found."] ∧
  exit_code (python (run_job (Some ∅)) offline_world) = 0 ∧
  traceback (python (run_job (Some ∅)) offline_world) = None ∧
  calls (final (python (run_job (Some ∅)) offline_world)) = [].
Proof.
  split; [reflexivity|].
  apply (falsy_result_is_not_found (Some ∅) offline_world). reflexivity.
Defined.

(** C9. In every world, whatever the environment holds, each command the
    script sends goes to the collection [jobs] of the database [filesure]
    and is the [find_one] for [jobStatus] equal to ["pending"], and each
    child it starts has the argument list [python downloader.py <id>], where
    [<id>] is the text of the [_id] of a record of the job queue. *)
Theorem names_and_command_are_fixed w :
  Forall (λ c,
            match c with
            | Query coll op =>
                db_name (coll_db coll) = "filesure" ∧ coll_name coll = "jobs" ∧
                op = FindOne {["jobStatus" := BStr "pending"]}
            | Spawn argv =>
                ∃ docs d v, job_queue w = Some docs ∧ d ∈ docs ∧ d !! "_id" = Some v ∧
                            argv = ["python"; "downloader.py"; py_str v]
            | _ => True
            end)
         (calls (final (python run_with_job_id w))).
Proof.
  run_cases w; intros; simpl.
  1-6: by repeat constructor.
  all: match goal with
       | H : head (List.filter is_pending _) = Some _ |- _ =>
           pose proof (head_filter_Some _ _ _ H) as [Hin _]
       end.
  - repeat constructor; eauto 10.
  - by_exception_with ltac:(repeat constructor; eauto 10).
Qed.

(** C10, as amended.  Two runs that read the same value of [MONGO_URI] (or
    both read none), get the same answer to their query and have standard
    outputs that can write the same lines print the same lines, use the
    same connection string and start their child with the same argument
    list; when that answer is falsy both end with status 0. *)
Theorem same_inputs_same_behaviour w1 w2 job :
  environ w1 !! "MONGO_URI" = environ w2 !! "MONGO_URI" →
  query_result w1 = Some job →
  query_result w2 = Some job →
  (∀ line, can_print w1 line = can_print w2 line) →
  stdout (final (python run_with_job_id w1)) = stdout (final (python run_with_job_id w2)) ∧
  spawned (calls (final (python run_with_job_id w1)))
    = spawned (calls (final (python run_with_job_id w2))) ∧
  endpoints_used (calls (final (python run_with_job_id w1)))
    = endpoints_used (calls (final (python run_with_job_id w2))) ∧
  (if truthy job then True
   else exit_code (python run_with_job_id w1) = 0 ∧
        exit_code (python run_with_job_id w2) = 0).
Proof.
  intros He H1 H2 Hc.
  assert (mongo_uri_of w1 = mongo_uri_of w2) as Hu.
  { unfold mongo_uri_of, dict_get. by rewrite He. }
  unfold python. rewrite (run_after_query w1 job H1), (run_after_query w2 job H2).
  unfold asked. rewrite Hu.
  destruct (truthy job) eqn:Ht.
  - destruct job as [d|]; [|done].
    destruct (d !! "_id") as [v|] eqn:Hid.
    + destruct (can_print w2 ("Running job: " +:+ py_str v)) eqn:Hp.
      * rewrite !(run_job_found d v) by (done || by rewrite Hc). simpl.
        destruct (os_exec w1 _) as [rc1|e1], (os_exec w2 _) as [rc2|e2];
          try destruct e1; try destruct e2; done.
      * by rewrite !(run_job_unprintable d v) by (done || by rewrite Hc).
    + by rewrite !run_job_no_id.
  - by rewrite !run_job_falsy.
Qed.

Lemma same_inputs_same_behaviour_witness :
  environ (local_world [job_b; job_a] 0) !! "MONGO_URI"
    = environ (local_world [job_b; job_done] 9) !! "MONGO_URI" ∧
  query_result (local_world [job_b; job_a] 0) = Some (Some job_b) ∧
  query_result (local_world [job_b; job_done] 9) = Some (Some job_b) ∧
  stdout (final (python run_with_job_id (local_world [job_b; job_a] 0)))
    = stdout (final (python run_with_job_id (local_world [job_b; job_done] 9))) ∧
  spawned (calls (final (python run_with_job_id (local_world [job_b; job_a] 0))))
    = spawned (calls (final (python run_with_job_id (local_world [job_b; job_done] 9)))) ∧
  endpoints_used (calls (final (python run_with_job_id (local_world [job_b; job_a] 0))))
    = endpoints_used
        (calls (final (python run_with_job_id (local_world [job_b; job_done] 9)))) ∧
  (if truthy (Some job_b) then True
   else exit_code (python run_with_job_id (local_world [job_b; job_a] 0)) = 0 ∧
        exit_code (python run_with_job_id (local_world [job_b; job_done] 9)) = 0).
Proof.
  split; [reflexivity|]. split; [by vm_compute|]. split; [by vm_compute|].
  apply (same_inputs_same_behaviour
           (local_world [job_b; job_a] 0) (local_world [job_b; job_done] 9)
           (Some job_b)); [reflexivity | by vm_compute | by vm_compute | reflexivity].
Defined.

(** C10, as stated, fails: the same [MONGO_URI] (none) and the same record
    answered, named [café]; a standard output that encodes it prints the
    line and starts the child, one that encodes ASCII only does neither. *)
Lemma same_inputs_counterexample :
  environ (local_world [job_cafe] 0) !! "MONGO_URI"
    = environ (ascii_world [job_cafe] 0) !! "MONGO_URI" ∧
  query_result (local_world [job_cafe] 0) = Some (Some job_cafe) ∧
  query_result (ascii_world [job_cafe] 0) = Some (Some job_cafe) ∧
  stdout (final (python run_with_job_id (local_world [job_cafe] 0)))
    ≠ stdout (final (python run_with_job_id (ascii_world [job_cafe] 0))) ∧
  spawned (calls (final (python run_with_job_id (local_world [job_cafe] 0))))
    ≠ spawned (calls (final (python run_with_job_id (ascii_world [job_cafe] 0)))).
Proof.
  split; [reflexivity|]. split; [by vm_compute|]. split; [by vm_compute|].
  split; vm_compute; discriminate.
Qed.

(** * Further properties of the script *)

(** ** The paths that end in a traceback *)

(** X1. Line 8 has no handler: when the constructor of the client refuses
    the connection string, whatever it raises for it ([InvalidURI],
    [ConfigurationError] or [ValueError]) ends the script with status 1 and
    that traceback, and the only call made is the construction of the
    client: no command is sent, nothing is printed, nothing is started. *)
Theorem refused_uri_aborts_before_query w e :
  client_refuses w (mongo_uri_of w) = Some e →
  exit_code (python run_with_job_id w) = 1 ∧
  traceback (python run_with_job_id w) = Some (uri_exception e) ∧
  stdout (final (python run_with_job_id w)) = [] ∧
  calls (final (python run_with_job_id w)) = [Connect (mongo_uri_of w)].
Proof.
  intros Hv. run_cases w; intros; same_queue;
    try (match goal with
         | H : uri_valid _ _ = true |- _ => apply uri_valid_inv in H
         end);
    try congruence.
  by simplify_eq.
Qed.

Lemma refused_uri_aborts_before_query_witness :
  client_refuses misconfigured_world (mongo_uri_of misconfigured_world) = Some BadScheme ∧
  exit_code (python run_with_job_id misconfigured_world) = 1 ∧
  traceback (python run_with_job_id misconfigured_world) = Some InvalidURI ∧
  stdout (final (python run_with_job_id misconfigured_world)) = [] ∧
  calls (final (python run_with_job_id misconfigured_world))
    = [Connect (mongo_uri_of misconfigured_world)].
Proof.
  split; [by vm_compute|].
  apply (refused_uri_aborts_before_query misconfigured_world BadScheme). by vm_compute.
Defined.

(** X2. When the record the query answers has no [_id], the subscript of
    line 19 raises [KeyError]: status 1 with that traceback, and since the
    subscript comes before the [print] and the launch, nothing is printed
    and nothing is started. *)
Theorem record_without_id_raises_key_error w docs d :
  job_queue w = Some docs →
  head (List.filter is_pending docs) = Some d →
  d !! "_id" = None →
  exit_code (python run_with_job_id w) = 1 ∧
  traceback (python run_with_job_id w) = Some (KeyError "_id") ∧
  stdout (final (python run_with_job_id w)) = [] ∧
  spawned (calls (final (python run_with_job_id w))) = [].
Proof.
  intros Hq Hh Hid. run_cases w; intros; same_queue;
    match goal with
    | H : head (List.filter is_pending _) = _ |- _ => rewrite Hh in H; simplify_eq
    end.
  done.
Qed.

Lemma record_without_id_raises_key_error_witness :
  job_queue (local_world [job_done; job_no_id; job_a] 0)
    = Some [job_done; job_no_id; job_a] ∧
  exit_code (python run_with_job_id (local_world [job_done; job_no_id; job_a] 0)) = 1 ∧
  traceback (python run_with_job_id (local_world [job_done; job_no_id; job_a] 0))
    = Some (KeyError "_id") ∧
  stdout (final (python run_with_job_id (local_world [job_done; job_no_id; job_a] 0))) = [] ∧
  spawned (calls (final (python run_with_job_id (local_world [job_done; job_no_id; job_a] 0))))
    = [].
Proof.
  split; [by vm_compute|].
  apply (record_without_id_raises_key_error _ [job_done; job_no_id; job_a] job_no_id);
    by vm_compute.
Defined.

(** X3. When the line of the job is written and the child then cannot be
    started (the launch raises, with anything but [SystemExit]), the
    exception is not caught: the script ends with status 1 and the traceback
    of that exception, after it has printed the ["Running job"] line and
    tried the launch once; it waits for nothing. *)
Theorem failed_launch_is_uncaught w docs d v e :
  job_queue w = Some docs →
  head (List.filter is_pending docs) = Some d →
  d !! "_id" = Some v →
  can_print w ("Running job: " +:+ py_str v) = true →
  os_exec w ["python"; "downloader.py"; py_str v] = NotStarted e →
  (∀ c, e ≠ SystemExit c) →
  exit_code (python run_with_job_id w) = 1 ∧
  traceback (python run_with_job_id w) = Some e ∧
  stdout (final (python run_with_job_id w)) = ["Running job: " +:+ py_str v] ∧
  calls (final (python run_with_job_id w))
    = [Connect (mongo_uri_of w);
       Query (jobs_at (mongo_uri_of w)) (FindOne pending_filter);
       Spawn ["python"; "downloader.py"; py_str v]].
Proof.
  intros Hq Hh Hid Hp Hx He. run_cases w; intros; same_queue;
    match goal with
    | H : head (List.filter is_pending _) = _ |- _ => rewrite Hh in H; simplify_eq
    end;
    try congruence.
  all: match goal with
       | H : os_exec _ _ = _ |- _ => rewrite Hx in H; simplify_eq
       end.
  by_exception_with ltac:(try done). exfalso. by eapply He.
Qed.

Lemma failed_launch_is_uncaught_witness :
  job_queue (no_python_world [job_b]) = Some [job_b] ∧
  can_print (no_python_world [job_b]) ("Running job: " +:+ py_str (BStr "b-42")) = true ∧
  os_exec (no_python_world [job_b]) ["python"; "downloader.py"; py_str (BStr "b-42")]
    = NotStarted OSError ∧
  exit_code (python run_with_job_id (no_python_world [job_b])) = 1 ∧
  traceback (python run_with_job_id (no_python_world [job_b])) = Some OSError ∧
  stdout (final (python run_with_job_id (no_python_world [job_b])))
    = ["Running job: " +:+ py_str (BStr "b-42")] ∧
  calls (final (python run_with_job_id (no_python_world [job_b])))
    = [Connect (mongo_uri_of (no_python_world [job_b]));
       Query (jobs_at (mongo_uri_of (no_python_world [job_b]))) (FindOne pending_filter);
       Spawn ["python"; "downloader.py"; py_str (BStr "b-42")]].
Proof.
  split; [by vm_compute|]. split; [by vm_compute|]. split; [reflexivity|].
  apply (failed_launch_is_uncaught _ [job_b] job_b (BStr "b-42") OSError);
    by vm_compute.
Defined.

(** ** What every run looks like *)

(** X4. In every world a run is of one of three kinds: it ends with status
    1 having printed nothing and started nothing; or it prints the notice,
    starts nothing and ends with status 0; or it prints one ["Running job"]
    line and makes one launch, [python downloader.py] with the identifier
    of that line.  So the downloader is never started unannounced, never
    twice, and never after the notice. *)
Theorem three_kinds_of_run w :
  (stdout (final (python run_with_job_id w)) = [] ∧
   spawned (calls (final (python run_with_job_id w))) = [] ∧
   exit_code (python run_with_job_id w) = 1)
  ∨ (stdout (final (python run_with_job_id w)) = ["No pending job found."] ∧
     spawned (calls (final (python run_with_job_id w))) = [] ∧
     exit_code (python run_with_job_id w) = 0)
  ∨ (∃ job_id,
       stdout (final (python run_with_job_id w)) = ["Running job: " +:+ job_id] ∧
       spawned (calls (final (python run_with_job_id w)))
         = [["python"; "downloader.py"; job_id]]).
Proof.
  run_cases w; intros.
  1-3, 5-6: by left.
  - right; by left.
  - right; right. by eexists.
  - right; right. eexists. by_exception.
Qed.

(** ** What a run depends on *)

Lemma query_of_queue w docs :
  job_queue w = Some docs →
  query_result w = Some (head (List.filter is_pending docs)).
Proof.
  intros (Hv%uri_valid_inv & dbs & Hn & ->)%job_queue_inv.
  unfold query_result. by rewrite find_next_pending_boot, Hv, Hn.
Qed.

(** X6. Of its world a run sees the value of [MONGO_URI], the records of
    [filesure.jobs] behind it, which lines its standard output can write,
    and the answer to its launch.  Two worlds that agree on these, whatever
    else their environments, deployments and other collections hold, give
    the same status, traceback, printed lines and calls. *)
Theorem only_the_job_queue_matters w1 w2 docs :
  mongo_uri_of w1 = mongo_uri_of w2 →
  job_queue w1 = Some docs →
  job_queue w2 = Some docs →
  (∀ line, can_print w1 line = can_print w2 line) →
  (∀ argv, os_exec w1 argv = os_exec w2 argv) →
  exit_code (python run_with_job_id w1) = exit_code (python run_with_job_id w2) ∧
  traceback (python run_with_job_id w1) = traceback (python run_with_job_id w2) ∧
  stdout (final (python run_with_job_id w1)) = stdout (final (python run_with_job_id w2)) ∧
  calls (final (python run_with_job_id w1)) = calls (final (python run_with_job_id w2)).
Proof.
  intros Hu H1%query_of_queue H2%query_of_queue Hc Hx.
  unfold python. rewrite (run_after_query w1 _ H1), (run_after_query w2 _ H2).
  unfold asked. rewrite Hu.
  destruct (head (List.filter is_pending docs)) as [d|] eqn:Hh.
  - pose proof (head_filter_Some _ _ _ Hh) as [_ Ht%pending_truthy].
    destruct (d !! "_id") as [v|] eqn:Hid.
    + destruct (can_print w2 ("Running job: " +:+ py_str v)) eqn:Hp.
      * rewrite !(run_job_found d v) by (done || by rewrite Hc). simpl. rewrite Hx.
        destruct (os_exec w2 _) as [rc|e]; [done | by destruct e].
      * by rewrite !(run_job_unprintable d v) by (done || by rewrite Hc).
    + by rewrite !run_job_no_id.
  - by rewrite !run_job_falsy.
Qed.

Lemma only_the_job_queue_matters_witness :
  mongo_uri_of (local_world [job_done; job_cafe] 5)
    = mongo_uri_of (crowded_world [job_done; job_cafe] 5) ∧
  job_queue (local_world [job_done; job_cafe] 5) = Some [job_done; job_cafe] ∧
  job_queue (crowded_world [job_done; job_cafe] 5) = Some [job_done; job_cafe] ∧
  exit_code (python run_with_job_id (local_world [job_done; job_cafe] 5))
    = exit_code (python run_with_job_id (crowded_world [job_done; job_cafe] 5)) ∧
  traceback (python run_with_job_id (local_world [job_done; job_cafe] 5))
    = traceback (python run_with_job_id (crowded_world [job_done; job_cafe] 5)) ∧
  stdout (final (python run_with_job_id (local_world [job_done; job_cafe] 5)))
    = stdout (final (python run_with_job_id (crowded_world [job_done; job_cafe] 5))) ∧
  calls (final (python run_with_job_id (local_world [job_done; job_cafe] 5)))
    = calls (final (python run_with_job_id (crowded_world [job_done; job_cafe] 5))).
Proof.
  split; [by vm_compute|]. split; [by vm_compute|]. split; [by vm_compute|].
  apply (only_the_job_queue_matters _ _ [job_done; job_cafe]); by vm_compute.
Defined.

(** X7. A deployment that serves but has no [filesure] database, or no
    [jobs] collection in it, is an empty queue and not an error: the script
    prints the notice and ends with status 0. *)
Theorem missing_collection_is_an_empty_queue w dbs :
  uri_valid w (mongo_uri_of w) = true →
  network w !! mongo_uri_of w = Some (Serving dbs) →
  dbs !! "filesure" ≫= (.!! "jobs") = None →
  stdout (final (python run_with_job_id w)) = ["No pending job found."] ∧
  exit_code (python run_with_job_id w) = 0 ∧
  traceback (python run_with_job_id w) = None ∧
  spawned (calls (final (python run_with_job_id w))) = [].
Proof.
  intros Hv Hn Hc.
  assert (job_queue w = Some []) as Hq.
  { unfold job_queue, collection_docs. by rewrite Hv, Hn, Hc. }
  run_cases w; intros; same_queue; done.
Qed.

Lemma missing_collection_is_an_empty_queue_witness :
  uri_valid fresh_world (mongo_uri_of fresh_world) = true ∧
  stdout (final (python run_with_job_id fresh_world)) = ["No pending job found."] ∧
  exit_code (python run_with_job_id fresh_world) = 0 ∧
  traceback (python run_with_job_id fresh_world) = None ∧
  spawned (calls (final (python run_with_job_id fresh_world))) = [].
Proof.
  split; [reflexivity|].
  apply (missing_collection_is_an_empty_queue fresh_world
           {["archive" := {["jobs" := [job_a]]}]}); by vm_compute.
Defined.

(** ** The text of an [ObjectId] *)

Lemma hex_digit_inj (n m : N) :
  (n < 16)%N → (m < 16)%N → hex_digit n = hex_digit m → n = m.
Proof.
  intros Hn Hm.
  rewrite <- (N2Nat.id n), <- (N2Nat.id m).
  assert (N.to_nat n < 16)%nat as Ha by lia.
  assert (N.to_nat m < 16)%nat as Hb by lia.
  revert Ha Hb. generalize (N.to_nat n) (N.to_nat m). clear. intros a b Ha Hb.
  do 16 (destruct a as [|a];
         [do 16 (destruct b as [|b]; [vm_compute; congruence|]); lia|]).
  lia.
Qed.

Lemma byte_of_nibbles (a b : byte) :
  (Byte.to_N a / 16 = Byte.to_N b / 16)%N →
  (Byte.to_N a `mod` 16 = Byte.to_N b `mod` 16)%N →
  a = b.
Proof.
  intros Hq Hr.
  assert (Byte.to_N a = Byte.to_N b) as H.
  { rewrite (N.div_mod (Byte.to_N a) 16), (N.div_mod (Byte.to_N b) 16) by done.
    by rewrite Hq, Hr. }
  apply (f_equal Byte.of_N) in H. rewrite !Byte.of_to_N in H. by injection H.
Qed.

Lemma nibble_bounds (b : byte) :
  (Byte.to_N b / 16 < 16)%N ∧ (Byte.to_N b `mod` 16 < 16)%N.
Proof.
  pose proof (Byte.to_N_bounded b). split.
  - apply N.Div0.div_lt_upper_bound. lia.
  - by apply N.mod_lt.
Qed.

Lemma hexlify_inj bs1 bs2 : hexlify bs1 = hexlify bs2 → bs1 = bs2.
Proof.
  revert bs2. induction bs1 as [|a bs1 IH]; intros [|b bs2]; simpl; try done.
  intros [= Hh Hl Ht].
  destruct (nibble_bounds a), (nibble_bounds b).
  f_equal; [|by apply IH].
  apply byte_of_nibbles; by apply hex_digit_inj.
Qed.

(** X8. The text of an [ObjectId] identifies it: two records whose [_id]
    are [ObjectId]s and that are handed to the downloader under the same
    text have the same identifier. *)
Theorem object_id_text_identifies oid1 oid2 :
  py_str (BObjectId oid1) = py_str (BObjectId oid2) → oid1 = oid2.
Proof. apply hexlify_inj. Qed.

Lemma object_id_text_identifies_witness :
  py_str (BObjectId oid_a) = py_str (BObjectId oid_a) ∧ oid_a = oid_a.
Proof.
  split; [reflexivity|]. apply (object_id_text_identifies oid_a oid_a). reflexivity.
Defined.

Lemma byte_hex_digits (b : byte) :
  is_hex_digit (hex_digit (Byte.to_N b / 16)) = true ∧
  is_hex_digit (hex_digit (Byte.to_N b `mod` 16)) = true.
Proof. destruct b; split; reflexivity. Qed.

(** X9. The argument made of an [ObjectId] of twelve bytes is twenty-four
    characters long, each one a digit or a letter from [a] to [f]. *)
Theorem object_id_text_is_hex oid :
  length oid = 12%nat →
  String.length (py_str (BObjectId oid)) = 24%nat ∧
  forallb is_hex_digit (list_ascii_of_string (py_str (BObjectId oid))) = true.
Proof.
  intros Hlen. simpl. split; [rewrite hexlify_length; lia|].
  clear Hlen. induction oid as [|b oid IH]; [done|].
  destruct (byte_hex_digits b) as [Hh Hl]. simpl. by rewrite Hh, Hl, IH.
Qed.

Lemma object_id_text_is_hex_witness :
  length oid_a = 12%nat ∧
  String.length (py_str (BObjectId oid_a)) = 24%nat ∧
  forallb is_hex_digit (list_ascii_of_string (py_str (BObjectId oid_a))) = true.
Proof.
  split; [reflexivity|]. apply (object_id_text_is_hex oid_a). reflexivity.
Defined.
